(** * ArtItem: the art card component of pluminite-ui

    A shallow embedding of [src/components/common/ArtItem.js] (the
    [forwardRef] component [ArtItemWithRef]) and of the parts of the host
    platform it talks to: JavaScript truthiness, the React element tree it
    returns, the canvas it draws on and the events that reach its handlers. *)

From Stdlib Require Import String Ascii List Bool Arith Lia.
From Stdlib Require Import SpecFloat ZArith.
Import ListNotations.
Open Scope string_scope.
Open Scope list_scope.
Open Scope nat_scope.

(** ** JavaScript values *)

Module JS.

(** The primitive values the component's props range over.  A number is an
    IEEE 754 double, kept as the Standard Library's [spec_float]. *)
Inductive value : Type :=
| VUndefined
| VBool (b : bool)
| VNumber (x : spec_float)
| VString (s : string).

Definition is_empty (s : string) : bool :=
  match s with
  | EmptyString => true
  | String _ _ => false
  end.

(** ECMAScript [ToBoolean]: the operand test of [!], [&&] and [||]. *)
Definition ToBoolean (v : value) : bool :=
  match v with
  | VUndefined => false
  | VBool b => b
  | VNumber (S754_zero _) => false
  | VNumber S754_nan => false
  | VNumber _ => true
  | VString s => negb (is_empty s)
  end.

(** [a || b] on values. *)
Definition logical_or (a b : value) : value :=
  if ToBoolean a then a else b.

(** An optional string prop: absent is [undefined]. *)
Definition of_string (o : option string) : value :=
  match o with
  | None => VUndefined
  | Some s => VString s
  end.

Definition of_bool (o : option bool) : value :=
  match o with
  | None => VUndefined
  | Some b => VBool b
  end.

(** [ToString] on an optional string, as a template literal applies it. *)
Definition ToString (o : option string) : string :=
  match o with
  | None => "undefined"
  | Some s => s
  end.

Definition zero : spec_float := S754_zero false.

End JS.

(** ** The React element tree *)

Module React.

(** The click event a handler receives, reduced to the two flags that
    decide what happens after the handler returns. *)
Record ClickEvent : Type := mkClick {
  propagationStopped : bool;
  defaultPrevented : bool
}.

Definition freshClick : ClickEvent := mkClick false false.
Definition stopPropagation (e : ClickEvent) : ClickEvent :=
  mkClick true (defaultPrevented e).
Definition preventDefault (e : ClickEvent) : ClickEvent :=
  mkClick (propagationStopped e) true.

(** A caller-supplied click callback, seen through what it does to the
    event it is handed.  The handler is taken to return; what it does to
    its caller's own state lies outside the card. *)
Definition Callback : Type := ClickEvent -> ClickEvent.

Inductive ElementType : Type :=
| Host (tag : string)      (* 'div', 'img', 'canvas' *)
| Link                     (* react-router-dom *)
| Button                   (* ../Button *)
| StyledContainer.         (* styled(Link)`...` *)

Definition ElementType_eqb (a b : ElementType) : bool :=
  match a, b with
  | Host s, Host t => String.eqb s t
  | Link, Link => true
  | Button, Button => true
  | StyledContainer, StyledContainer => true
  | _, _ => false
  end.

(** The object literal given as [to]. *)
Record To : Type := mkTo {
  pathname : string;
  prevPathname : string
}.

Inductive Ref : Type :=
| ForwardedRef             (* the [ref] argument of forwardRef *)
| CanvasRef.               (* const canvasRef = useRef() *)

Inductive Handler : Type :=
| CopyImageOnCanvas        (* the closure defined in the component *)
| FromProp (f : Callback).  (* a function received as a prop *)

Inductive PropValue : Type :=
| PValue (v : JS.value)
| PTo (t : To)
| PType (c : ElementType)
| PRef (r : Ref)
| PHandler (h : Handler).

Definition Attrs : Type := list (string * PropValue).

(** What JSX evaluates to: an element, or a primitive in child position. *)
#[warnings="-register-all"]
Inductive Node : Type :=
| Child (v : JS.value)
| Element (type : ElementType) (props : Attrs) (children : list Node).

Fixpoint get (name : string) (ps : Attrs) : option PropValue :=
  match ps with
  | [] => None
  | (k, v) :: rest => if String.eqb k name then Some v else get name rest
  end.

(** [v && <element/>] in child position. *)
Definition logical_and (v : JS.value) (e : Node) : Node :=
  if JS.ToBoolean v then e else Child v.

(** Every element of the given type in the tree, outermost first, each with
    its props and children. *)
Fixpoint elements (t : ElementType) (n : Node) : list (Attrs * list Node) :=
  match n with
  | Child _ => []
  | Element ty ps cs =>
      (if ElementType_eqb ty t then [(ps, cs)] else []) ++
      (fix each (l : list Node) : list (Attrs * list Node) :=
         match l with
         | [] => []
         | c :: l' => elements t c ++ each l'
         end) cs
  end.

(** The chain of elements from the first element of type [t] up to the
    root: the path a bubbling event follows. *)
Fixpoint path_to (t : ElementType) (n : Node) : option (list (ElementType * Attrs)) :=
  match n with
  | Child _ => None
  | Element ty ps cs =>
      if ElementType_eqb ty t then Some [(ty, ps)]
      else
        match
          (fix first (l : list Node) : option (list (ElementType * Attrs)) :=
             match l with
             | [] => None
             | c :: l' =>
                 match path_to t c with
                 | Some p => Some p
                 | None => first l'
                 end
             end) cs
        with
        | Some p => Some (p ++ [(ty, ps)])
        | None => None
        end
  end.

End React.

(** ** The canvas *)

Module DOM.

(** A pixel of a bitmap: premultiplied RGBA, one byte a channel. *)
Record Pixel : Type := mkPixel {
  red : nat;
  green : nat;
  blue : nat;
  alpha : nat
}.

Definition transparent : Pixel := mkPixel 0 0 0 0.

(** The default compositing operation of a 2D context, [source-over], on
    premultiplied channels: [s + d * (1 - alpha s)]. *)
Definition source_over (s d : Pixel) : Pixel :=
  let k := 255 - alpha s in
  mkPixel (red s + red d * k / 255)
          (green s + green d * k / 255)
          (blue s + blue d * k / 255)
          (alpha s + alpha d * k / 255).

(** A decoded image element: its natural size and its pixel at [(x, y)]. *)
Record Image : Type := mkImage {
  naturalWidth : nat;
  naturalHeight : nat;
  pixelAt : nat -> nat -> Pixel
}.

(** A canvas element: its size attributes and its bitmap, a list of
    [height] rows of [width] pixels. *)
Record Canvas : Type := mkCanvas {
  width : nat;
  height : nat;
  bitmap : list (list Pixel)
}.

Definition blank (w h : nat) : list (list Pixel) :=
  repeat (repeat transparent w) h.

(** A canvas as the browser creates it: 300 by 150, transparent black. *)
Definition newCanvas : Canvas := mkCanvas 300 150 (blank 300 150).

(** [canvas.width = w]: assigning a size attribute replaces the bitmap by a
    cleared one of the new size, whatever it held. *)
Definition set_width (w : nat) (c : Canvas) : Canvas :=
  mkCanvas w (height c) (blank w (height c)).

(** [canvas.height = h] *)
Definition set_height (h : nat) (c : Canvas) : Canvas :=
  mkCanvas (width c) h (blank (width c) h).

Fixpoint mapi_from {A B : Type} (i : nat) (f : nat -> A -> B) (l : list A) : list B :=
  match l with
  | [] => []
  | a :: l' => f i a :: mapi_from (S i) f l'
  end.

Definition covers (image : Image) (dx dy x y : nat) : bool :=
  (dx <=? x) && (x <? dx + naturalWidth image) &&
  (dy <=? y) && (y <? dy + naturalHeight image).

(** [ctx.drawImage(image, dx, dy)]: the image at its natural size, composited
    over what the canvas holds, clipped to the canvas. *)
Definition drawImage (image : Image) (dx dy : nat) (c : Canvas) : Canvas :=
  mkCanvas (width c) (height c)
    (mapi_from 0
       (fun y row =>
          mapi_from 0
            (fun x d =>
               if covers image dx dy x y
               then source_over (pixelAt image (x - dx) (y - dy)) d
               else d)
            row)
       (bitmap c)).

(** The bitmap that holds exactly the image. *)
Definition bitmap_of (image : Image) : list (list Pixel) :=
  map (fun y => map (fun x => pixelAt image x y) (seq 0 (naturalWidth image)))
      (seq 0 (naturalHeight image)).

Definition snapshot (image : Image) : Canvas :=
  mkCanvas (naturalWidth image) (naturalHeight image) (bitmap_of image).

Inductive ImgEventType : Type :=
| load
| error.

(** An event fired at the [img] element; [target] is that element. *)
Record ImgEvent : Type := mkImgEvent {
  type : ImgEventType;
  target : Image
}.

End DOM.

(** ** Effects *)

Module Effect.
Import React DOM.

Inductive Exception : Type :=
| TypeError.

Inductive Completion (A : Type) : Type :=
| Normal (a : A)
| Throw (e : Exception).
Arguments Normal {A} a.
Arguments Throw {A} e.

(** What the outside of the component can observe of a click. *)
Inductive Observed : Type :=
| Called (e : ClickEvent)    (* the callback prop was invoked with [e] *)
| Navigated (t : To).        (* the router was sent to [t] *)

(** The state one mounted card works on.  [canvasRef_current] is
    [canvasRef.current]: the canvas element while React has it attached,
    [None] for [undefined] before the first commit and [null] after the
    component is removed. *)
Record World : Type := mkWorld {
  canvasRef_current : option Canvas;
  observed : list Observed
}.

Definition M (A : Type) : Type := World -> Completion A * World.

Definition ret {A : Type} (a : A) : M A := fun w => (Normal a, w).

Definition throw {A : Type} (e : Exception) : M A := fun w => (Throw e, w).

Definition bind {A B : Type} (m : M A) (k : A -> M B) : M B :=
  fun w =>
    match m w with
    | (Normal a, w') => k a w'
    | (Throw e, w') => (Throw e, w')
    end.

Declare Scope effect_scope.
Delimit Scope effect_scope with effect.
Notation "x <- m ;; k" := (bind m (fun x => k))
  (at level 61, m at next level, right associativity) : effect_scope.
Notation "m ;; k" := (bind m (fun _ => k))
  (at level 61, right associativity) : effect_scope.

(** A member access or assignment through [canvasRef.current]: a
    [TypeError] when the ref holds no element. *)
Definition on_canvas (f : Canvas -> Canvas) : M unit :=
  fun w =>
    match canvasRef_current w with
    | Some c => (Normal tt, mkWorld (Some (f c)) (observed w))
    | None => (Throw TypeError, w)
    end.

Definition observe (o : Observed) : M unit :=
  fun w => (Normal tt, mkWorld (canvasRef_current w) (observed w ++ [o])).

(** React attaches the ref when the element is committed and clears it when
    the component is removed. *)
Definition mount (w : World) : World :=
  mkWorld (Some newCanvas) (observed w).


Definition initial : World := mkWorld None [].

End Effect.

(** ** The component *)

Module ArtItem.
Import JS React DOM Effect.
Local Open Scope effect_scope.

(** [buttonText: PropTypes.oneOfType([PropTypes.string, PropTypes.number])] *)
Inductive Label : Type :=
| LString (s : string)
| LNumber (x : spec_float).

Definition of_label (o : option Label) : value :=
  match o with
  | None => VUndefined
  | Some (LString s) => VString s
  | Some (LNumber x) => VNumber x
  end.

(** [ArtItem.propTypes]: every prop is optional; an absent one is
    [undefined]. *)
Record Props : Type := mkProps {
  gemId : option string;
  dataUrl : option string;
  buttonText : option Label;
  isButtonDisabled : option bool;
  onButtonClick : option Callback
}.

Definition noProps : Props := mkProps None None None None None.

(** [ArtItem.defaultProps = { onButtonClick: () => {} }] *)
Definition defaultOnButtonClick : Callback := fun e => e.

Definition withDefaults (p : Props) : Props :=
  mkProps (gemId p) (dataUrl p) (buttonText p) (isButtonDisabled p)
          (Some match onButtonClick p with
                | Some f => f
                | None => defaultOnButtonClick
                end).

Definition handler_of (o : option Callback) : PropValue :=
  match o with
  | Some f => PHandler (FromProp f)
  | None => PValue VUndefined
  end.

(** [useLocation()] *)
Record Location : Type := mkLocation {
  location_pathname : string
}.

(** [function copyImageOnCanvas(event)] *)
Definition copyImageOnCanvas (event : ImgEvent) : M unit :=
  let image := target event in
  on_canvas (fun canvas => canvas) ;;              (* canvas.getContext('2d') *)
  on_canvas (set_width (naturalWidth image)) ;;    (* canvas.width = ... *)
  on_canvas (set_height (naturalHeight image)) ;;  (* canvas.height = ... *)
  on_canvas (drawImage image 0 0).                 (* ctx.drawImage(image, 0, 0) *)

Section Render.

(** [import placeholderDataUrl from '../../../assets/art.png']: the URL the
    bundler resolves the asset to. *)
Variable placeholderDataUrl : string.

Definition isLink (p : Props) : bool :=
  negb (negb (ToBoolean (of_string (gemId p)))).

Definition params (p : Props) (location : Location) : Attrs :=
  [ ("to",
     if isLink p
     then PTo (mkTo (String.append "/gem/" (ToString (gemId p)))
                    (location_pathname location))
     else PValue VUndefined);
    ("as", if isLink p then PType Link else PType (Host "div")) ].

(** The function body of [ArtItemWithRef], props already merged with
    [defaultProps]. *)
Definition ArtItemWithRef (p : Props) (location : Location) : Node :=
  Element StyledContainer (params p location)
    [ Element (Host "div") [("className", PValue (VString "image-container"))]
        [ Element (Host "img")
            [ ("ref", PRef ForwardedRef);
              ("src", PValue (logical_or (of_string (dataUrl p))
                                         (VString placeholderDataUrl)));
              ("alt", PValue (VString "art"));
              ("onLoad", PHandler CopyImageOnCanvas) ]
            [];
          Element (Host "canvas") [("ref", PRef CanvasRef)] [] ];
      logical_and (of_label (buttonText p))
        (Element Button
           [ ("isPrimary", PValue (VBool true));
             ("isSmall", PValue (VBool true));
             ("isDisabled", PValue (of_bool (isButtonDisabled p)));
             ("onClick", handler_of (onButtonClick p)) ]
           [ Child (of_label (buttonText p)) ]) ].

(** What React does with [<ArtItem ... />]. *)
Definition render (p : Props) (location : Location) : Node :=
  ArtItemWithRef (withDefaults p) location.

End Render.

(** *** Reading a rendered card *)

(** The component an element stands for: a styled component renders its
    [as] prop when given, else the component it wraps. *)
Definition resolve (ty : ElementType) (ps : Attrs) : ElementType :=
  match ty with
  | StyledContainer =>
      match get "as" ps with
      | Some (PType c) => c
      | _ => Link
      end
  | _ => ty
  end.

Definition rendered_as (n : Node) : option ElementType :=
  match n with
  | Element ty ps _ => Some (resolve ty ps)
  | Child _ => None
  end.

(** The navigation target of the container: its [to] prop. *)
Definition target_of (n : Node) : option To :=
  match n with
  | Element _ ps _ =>
      match get "to" ps with
      | Some (PTo t) => Some t
      | _ => None
      end
  | Child _ => None
  end.

Definition image_src (n : Node) : option PropValue :=
  match elements (Host "img") n with
  | (ps, _) :: _ => get "src" ps
  | [] => None
  end.

Definition action_controls (n : Node) : list (Attrs * list Node) :=
  elements Button n.

(** *** Events reaching a rendered card *)

Definition handler_name (t : ImgEventType) : string :=
  match t with
  | load => "onLoad"
  | error => "onError"
  end.

(** React calls the handler the [img] element carries for the event's type,
    if it carries one. *)
Definition dispatch_img (tree : Node) (event : ImgEvent) : M unit :=
  match elements (Host "img") tree with
  | (ps, _) :: _ =>
      match get (handler_name (type event)) ps with
      | Some (PHandler CopyImageOnCanvas) => copyImageOnCanvas event
      | _ => ret tt
      end
  | [] => ret tt
  end.

(** react-router's [Link] on a plain primary-button click: unless the default
    was prevented, it prevents it and navigates to [to]. *)
Definition Link_click (ps : Attrs) (e : ClickEvent) : M ClickEvent :=
  if defaultPrevented e then ret e
  else
    match get "to" ps with
    | Some (PTo t) => observe (Navigated t) ;; ret (preventDefault e)
    | _ => ret e
    end.

Definition is_disabled (ps : Attrs) : bool :=
  match get "isDisabled" ps with
  | Some (PValue v) => ToBoolean v
  | _ => false
  end.

(** Modelled from the spec: [../Button] is not among the sources.  The spec
    gives it as a primitive taking variant flags, a disabled flag, a click
    handler and its label as children, and says of the action control that
    clicking it invokes the handler and that its click does not bubble into
    the link.  So an enabled button calls the handler it was given as
    [onClick] with the event and stops the propagation.  Of a click on a
    disabled control the spec says nothing: there React withholds the
    handler of a disabled button, and the click goes on up the tree. *)
Definition Button_click (ps : Attrs) (e : ClickEvent) : M ClickEvent :=
  if is_disabled ps then ret e
  else
    match get "onClick" ps with
    | Some (PHandler (FromProp f)) => observe (Called e) ;; ret (stopPropagation (f e))
    | _ => ret (stopPropagation e)
    end.

(** What one element on the event's path does with a click. *)
Definition on_click (el : ElementType * Attrs) (e : ClickEvent) : M ClickEvent :=
  match resolve (fst el) (snd el) with
  | Button => Button_click (snd el) e
  | Link => Link_click (snd el) e
  | _ => ret e
  end.

(** Bubbling: from the target up to the root, until a handler stops it. *)
Fixpoint bubble (path : list (ElementType * Attrs)) (e : ClickEvent) : M ClickEvent :=
  match path with
  | [] => ret e
  | el :: up =>
      if propagationStopped e then ret e
      else e' <- on_click el e ;; bubble up e'
  end.

(** A click on the action control: the event starts at the button and
    bubbles.  A card without a control has nothing to click. *)
Definition click_action (tree : Node) : M unit :=
  match path_to Button tree with
  | Some path => bubble path freshClick ;; ret tt
  | None => ret tt
  end.

(** Every place in a tree where the load handler is bound: the element's
    type and the prop's name. *)
Definition bound_in (ty : ElementType) (ps : Attrs) : list (ElementType * string) :=
  flat_map
    (fun kv =>
       match snd kv with
       | PHandler CopyImageOnCanvas => [(ty, fst kv)]
       | _ => []
       end)
    ps.

Fixpoint bindings (n : Node) : list (ElementType * string) :=
  match n with
  | Child _ => []
  | Element ty ps cs =>
      bound_in ty ps ++
      (fix each (l : list Node) : list (ElementType * string) :=
         match l with
         | [] => []
         | c :: l' => bindings c ++ each l'
         end) cs
  end.

(** The handler the control is given: the caller's, or the default no-op. *)
Definition callback (p : Props) : Callback :=
  match onButtonClick p with
  | Some f => f
  | None => defaultOnButtonClick
  end.

Definition control (p : Props) : Attrs * list Node :=
  ([ ("isPrimary", PValue (VBool true));
     ("isSmall", PValue (VBool true));
     ("isDisabled", PValue (of_bool (isButtonDisabled p)));
     ("onClick", PHandler (FromProp (callback p))) ],
   [ Child (of_label (buttonText p)) ]).

(** *** Sample inputs *)

(** The card of the spec's scenario. *)
Definition sample_card : Props :=
  mkProps (Some "gem42") (Some "https://x/img.png") (Some (LString "Bid 55")) None None.

(** The same card with a handler that keeps the click to itself. *)
Definition guarded_card : Props :=
  mkProps (Some "gem42") (Some "https://x/img.png") (Some (LString "Bid 55"))
          (Some false) (Some stopPropagation).

Definition gradient : Image :=
  mkImage 3 2 (fun x y => mkPixel (10 * x) (20 * y) 7 255).

(** The same picture, computed another way. *)
Definition gradient' : Image :=
  mkImage 3 2 (fun x y => mkPixel (x * 10) (y * 20) 7 255).

Definition scribble : Canvas :=
  mkCanvas 1 4 [[mkPixel 9 9 9 255]; [mkPixel 1 2 3 4]; [transparent]; [transparent]].

End ArtItem.

(** ** The card over time *)

Module Session.
Import JS React DOM Effect ArtItem.
Local Open Scope effect_scope.

(** The card is on screen exactly while React keeps its refs attached. *)
Definition mounted (w : World) : bool :=
  match canvasRef_current w with
  | Some _ => true
  | None => false
  end.

(** React hands an event to a handler only while the element it fired at
    belongs to a mounted component: an event at the [img] of a card that was
    removed, or not yet committed, reaches no handler. *)
Definition deliver (tree : Node) (event : ImgEvent) : M unit :=
  fun w => if mounted w then dispatch_img tree event w else (Normal tt, w).


(** One image event in the life of a mounted card: the props and location of
    the render that is on screen when it fires, and the event. *)
Definition Step : Type := (Props * Location * ImgEvent)%type.

(** A re-render that turns the container from a [Link] into a [div] or back
    changes the type of the element above the image block, so React removes
    the old [img] and [canvas] and mounts new ones: the ref then holds a new
    canvas.  A re-render that keeps the container's type keeps them. *)
Definition rerender (was_link : bool) (p : Props) : M unit :=
  fun w =>
    if mounted w && negb (Bool.eqb (isLink p) was_link)
    then (Normal tt, mount w)
    else (Normal tt, w).

Section Steps.

Variable placeholderDataUrl : string.

(** The card, last rendered as a link or not, is re-rendered with each
    step's props and then receives the step's event; a handler that throws
    ends the run. *)
Fixpoint dispatch_all (was_link : bool) (steps : list Step) : M unit :=
  match steps with
  | [] => ret tt
  | (p, location, event) :: later =>
      rerender was_link p ;;
      deliver (render placeholderDataUrl p location) event ;;
      dispatch_all (isLink p) later
  end.

End Steps.

(** The image of the last [load] among the steps. *)
Fixpoint last_loaded (steps : list Step) : option Image :=
  match steps with
  | [] => None
  | (_, _, event) :: later =>
      match last_loaded later with
      | Some image => Some image
      | None =>
          match type event with
          | load => Some (target event)
          | error => None
          end
      end
  end.

(** Whether React puts a primitive child on the page: [undefined] and
    booleans give nothing, a number gives its digits, a string its text. *)
Definition prints (v : value) : bool :=
  match v with
  | VUndefined => false
  | VBool _ => false
  | VNumber _ => true
  | VString s => negb (is_empty s)
  end.

(** The children of the root element. *)
Definition children_of (n : Node) : list Node :=
  match n with
  | Element _ _ cs => cs
  | Child _ => []
  end.



End Session.

(** ** The first version of the card *)

Module Legacy.
Import JS React.

(** [const placeholderBid = 55] *)
Definition placeholderBid : spec_float := S754_finite false 55%positive 0%Z.

(** [ArtItem.propTypes = { dataUrl: PropTypes.string, bid: PropTypes.string }] *)
Record Props : Type := mkProps {
  dataUrl : option string;
  bid : option string
}.

Section Render.

(** [import placeholderDataUrl from '../../assets/art.png'] *)
Variable placeholderDataUrl : string.

(** [const ArtItem = ({ dataUrl, bid }) => (...)].  Its container is
    [styled('div')], which renders a [div]. *)
Definition ArtItem (p : Props) : Node :=
  Element (Host "div") []
    [ Element (Host "img")
        [ ("src", PValue (logical_or (of_string (dataUrl p))
                                     (VString placeholderDataUrl)));
          ("alt", PValue (VString "art")) ]
        [];
      Element Button
        [ ("isPrimary", PValue (VBool true));
          ("isSmall", PValue (VBool true)) ]
        [ Child (VString "Bid ");
          Child (logical_or (of_string (bid p)) (VNumber placeholderBid));
          Child (VString "Ⓝ") ] ].

End Render.

End Legacy.

(** * Facts *)

(** ** The canvas operations *)

Module CanvasFacts.
Import DOM.

Lemma source_over_transparent (s : Pixel) : source_over s transparent = s.
Proof.
  destruct s as [r g b a]. unfold source_over. simpl.
  rewrite !Nat.add_0_r. reflexivity.
Qed.

Lemma mapi_from_repeat {A B : Type} (f : nat -> A -> B) (a : A) (n : nat) :
  forall i, mapi_from i f (repeat a n) = map (fun j => f j a) (seq i n).
Proof.
  induction n as [| n IH]; intro i; simpl.
  - reflexivity.
  - rewrite IH. reflexivity.
Qed.

Lemma covers_origin (image : Image) (x y : nat) :
  x < naturalWidth image -> y < naturalHeight image ->
  covers image 0 0 x y = true.
Proof.
  intros Hx Hy. unfold covers. simpl.
  apply Nat.ltb_lt in Hx. apply Nat.ltb_lt in Hy.
  rewrite Hx, Hy. reflexivity.
Qed.

(** Drawing at the origin of a cleared canvas of the image's size leaves
    exactly the image. *)
Lemma drawImage_on_cleared (image : Image) :
  drawImage image 0 0
    (mkCanvas (naturalWidth image) (naturalHeight image)
              (blank (naturalWidth image) (naturalHeight image)))
  = snapshot image.
Proof.
  unfold drawImage, snapshot, bitmap_of, blank. simpl. f_equal.
  rewrite mapi_from_repeat.
  apply map_ext_in. intros y Hy. apply in_seq in Hy.
  rewrite mapi_from_repeat.
  apply map_ext_in. intros x Hx. apply in_seq in Hx.
  rewrite covers_origin by lia.
  rewrite !Nat.sub_0_r. apply source_over_transparent.
Qed.

Lemma resize_then_draw (image : Image) (c : Canvas) :
  drawImage image 0 0
    (set_height (naturalHeight image) (set_width (naturalWidth image) c))
  = snapshot image.
Proof.
  unfold set_height, set_width. simpl. apply drawImage_on_cleared.
Qed.

Lemma bitmap_of_length (image : Image) :
  length (bitmap_of image) = naturalHeight image.
Proof.
  unfold bitmap_of. rewrite length_map, length_seq. reflexivity.
Qed.

Lemma bitmap_of_rows (image : Image) :
  Forall (fun row => length row = naturalWidth image) (bitmap_of image).
Proof.
  unfold bitmap_of. apply Forall_forall. intros row Hin.
  apply in_map_iff in Hin. destruct Hin as [y [<- _]].
  rewrite length_map, length_seq. reflexivity.
Qed.

Lemma bitmap_of_pixel (image : Image) (x y : nat) :
  x < naturalWidth image -> y < naturalHeight image ->
  nth x (nth y (bitmap_of image) []) transparent = pixelAt image x y.
Proof.
  intros Hx Hy. unfold bitmap_of.
  rewrite (nth_indep _ [] (map (fun x0 => pixelAt image x0 0) (seq 0 (naturalWidth image))))
    by (rewrite length_map, length_seq; exact Hy).
  rewrite (map_nth (fun y0 => map (fun x0 => pixelAt image x0 y0) (seq 0 (naturalWidth image)))
                   (seq 0 (naturalHeight image)) 0 y).
  rewrite seq_nth by exact Hy. simpl.
  rewrite (nth_indep _ transparent (pixelAt image 0 y))
    by (rewrite length_map, length_seq; exact Hx).
  rewrite (map_nth (fun x0 => pixelAt image x0 y) (seq 0 (naturalWidth image)) 0 x).
  rewrite seq_nth by exact Hx. reflexivity.
Qed.

(** Two images of the same size and the same pixels give the same bitmap. *)
Lemma snapshot_ext (i1 i2 : Image) :
  naturalWidth i1 = naturalWidth i2 ->
  naturalHeight i1 = naturalHeight i2 ->
  (forall x y, pixelAt i1 x y = pixelAt i2 x y) ->
  snapshot i1 = snapshot i2.
Proof.
  intros Hw Hh Hp. unfold snapshot, bitmap_of. rewrite Hw, Hh. f_equal.
  apply map_ext. intro y. apply map_ext. intro x. apply Hp.
Qed.

End CanvasFacts.

(** ** The load handler *)

Module Capture.
Import JS React DOM Effect ArtItem Session CanvasFacts.

(** With a canvas behind the ref, the handler completes and leaves the
    image's snapshot there. *)
Lemma copyImageOnCanvas_attached (event : ImgEvent) (c : Canvas) (obs : list Observed) :
  copyImageOnCanvas event (mkWorld (Some c) obs)
  = (Normal tt, mkWorld (Some (snapshot (target event))) obs).
Proof.
  unfold copyImageOnCanvas, bind, on_canvas. cbn [canvasRef_current observed].
  rewrite resize_then_draw. reflexivity.
Qed.

(** With nothing behind the ref, the first member access throws. *)
Lemma copyImageOnCanvas_detached (event : ImgEvent) (obs : list Observed) :
  copyImageOnCanvas event (mkWorld None obs) = (Throw TypeError, mkWorld None obs).
Proof. reflexivity. Qed.

(** The [img] of every rendered card carries the handler as [onLoad]. *)
Lemma dispatch_load (ph : string) (p : Props) (loc : Location) (image : Image) :
  dispatch_img (render ph p loc) (mkImgEvent load image)
  = copyImageOnCanvas (mkImgEvent load image).
Proof. reflexivity. Qed.

Lemma dispatch_error (ph : string) (p : Props) (loc : Location) (image : Image) :
  dispatch_img (render ph p loc) (mkImgEvent error image) = ret tt.
Proof. reflexivity. Qed.

Lemma bindings_render (ph : string) (p : Props) (loc : Location) :
  bindings (render ph p loc) = [(Host "img", "onLoad")].
Proof.
  destruct p as [g d b dis cb].
  unfold render, ArtItemWithRef, params, logical_and, isLink. cbn.
  destruct (negb (negb (ToBoolean (of_string g))));
    destruct (ToBoolean (of_label b)); reflexivity.
Qed.

(** C5: after a load event on a rendered card, whatever canvas the card has
    is the image's snapshot: its width and height are the image's natural
    width and height and it holds exactly the image, pixel for pixel.  With
    the canvas in place the handler completes, and the result does not depend
    on what the canvas was before, so nothing of it survives. *)
Theorem load_sizes_canvas_to_image :
  forall (ph : string) (p : Props) (loc : Location) (image : Image),
    (forall (before : Canvas) (obs : list Observed),
       dispatch_img (render ph p loc) (mkImgEvent load image)
                    (mkWorld (Some before) obs)
       = (Normal tt, mkWorld (Some (snapshot image)) obs)) /\
    (forall (w : World) (c : Canvas),
       canvasRef_current
         (snd (dispatch_img (render ph p loc) (mkImgEvent load image) w)) = Some c ->
       c = snapshot image) /\
    width (snapshot image) = naturalWidth image /\
    height (snapshot image) = naturalHeight image /\
    length (bitmap (snapshot image)) = naturalHeight image /\
    Forall (fun row => length row = naturalWidth image) (bitmap (snapshot image)) /\
    (forall x y, x < naturalWidth image -> y < naturalHeight image ->
       nth x (nth y (bitmap (snapshot image)) []) transparent = pixelAt image x y).
Proof.
  intros ph p loc image. rewrite dispatch_load.
  split; [intros before obs; apply copyImageOnCanvas_attached |].
  split.
  - intros [[before |] obs] c.
    + rewrite copyImageOnCanvas_attached. cbn. congruence.
    + rewrite copyImageOnCanvas_detached. cbn. discriminate.
  - repeat split.
    + apply bitmap_of_length.
    + apply bitmap_of_rows.
    + intros x y Hx Hy. apply bitmap_of_pixel; assumption.
Qed.

Lemma load_sizes_canvas_to_image_witness :
  snd (dispatch_img (render "art.png" noProps (mkLocation "/"))
                    (mkImgEvent load gradient) (mkWorld (Some scribble) []))
  = mkWorld (Some (mkCanvas 3 2
       [[mkPixel 0 0 7 255; mkPixel 10 0 7 255; mkPixel 20 0 7 255];
        [mkPixel 0 20 7 255; mkPixel 10 20 7 255; mkPixel 20 20 7 255]])) [] /\
  nth 2 (nth 1 (bitmap (snapshot gradient)) []) transparent = mkPixel 20 20 7 255.
Proof.
  destruct (load_sizes_canvas_to_image "art.png" noProps (mkLocation "/") gradient)
    as [Hrun [_ [_ [_ [_ [_ Hpix]]]]]].
  split.
  - rewrite Hrun. reflexivity.
  - rewrite (Hpix 2 1); [reflexivity | simpl; lia | simpl; lia].
Defined.

(** C9: capturing twice, the second time from an image of the same natural
    size and the same pixels as the first, ends in the same completion and
    the same state (canvas size and content) as capturing once. *)
Theorem capture_idempotent :
  forall (i1 i2 : Image) (w : World),
    naturalWidth i1 = naturalWidth i2 ->
    naturalHeight i1 = naturalHeight i2 ->
    (forall x y, pixelAt i1 x y = pixelAt i2 x y) ->
    copyImageOnCanvas (mkImgEvent load i2)
      (snd (copyImageOnCanvas (mkImgEvent load i1) w))
    = copyImageOnCanvas (mkImgEvent load i1) w.
Proof.
  intros i1 i2 [[c |] obs] Hw Hh Hp.
  - rewrite copyImageOnCanvas_attached. cbn [snd].
    rewrite copyImageOnCanvas_attached. cbn [target].
    rewrite (snapshot_ext i1 i2 Hw Hh Hp). reflexivity.
  - rewrite copyImageOnCanvas_detached. cbn [snd].
    apply copyImageOnCanvas_detached.
Qed.

Lemma capture_idempotent_witness :
  copyImageOnCanvas (mkImgEvent load gradient')
    (snd (copyImageOnCanvas (mkImgEvent load gradient) (mkWorld (Some scribble) [])))
  = copyImageOnCanvas (mkImgEvent load gradient) (mkWorld (Some scribble) []).
Proof.
  apply (capture_idempotent gradient gradient' (mkWorld (Some scribble) [])).
  - reflexivity.
  - reflexivity.
  - intros x y. simpl. f_equal; lia.
Defined.


(** C7: an error event on the image of a rendered card runs no handler:
    the load handler is bound to [onLoad] of the [img] and nowhere else,
    the completion is normal and the state is unchanged, so a canvas that
    was blank is still blank and a missing one is still missing. *)
Theorem load_failure_is_silent :
  forall (ph : string) (p : Props) (loc : Location) (broken : Image) (w : World),
    dispatch_img (render ph p loc) (mkImgEvent error broken) w = (Normal tt, w) /\
    bindings (render ph p loc) = [(Host "img", "onLoad")] /\
    canvasRef_current
      (snd (dispatch_img (render ph p loc) (mkImgEvent error broken) (mount w)))
    = Some newCanvas /\
    canvasRef_current
      (snd (dispatch_img (render ph p loc) (mkImgEvent error broken) initial))
    = None.
Proof.
  intros ph p loc broken w. rewrite !dispatch_error.
  split; [reflexivity |].
  split; [apply bindings_render |].
  split; reflexivity.
Qed.

End Capture.

(** ** The container and the image *)

Module Container.
Import JS React DOM Effect ArtItem.

(** A card with an identifier: the container is a [Link] to the gem's route,
    carrying the path of the page it is rendered on. *)
Lemma container_with_gem (ph : string) (p : Props) (loc : Location) (s : string) :
  gemId p = Some s -> s <> "" ->
  rendered_as (render ph p loc) = Some Link /\
  target_of (render ph p loc)
  = Some (mkTo (String.append "/gem/" s) (location_pathname loc)).
Proof.
  intros Hg Hs. destruct p as [g d b dis cb]. simpl in Hg. subst g.
  destruct s as [| a s]; [contradiction |].
  split; reflexivity.
Qed.

Lemma container_without_gem (ph : string) (p : Props) (loc : Location) :
  gemId p = None \/ gemId p = Some "" ->
  params (withDefaults p) loc
  = [("to", PValue VUndefined); ("as", PType (Host "div"))].
Proof.
  intros Hg. destruct p as [g d b dis cb]. simpl in Hg.
  destruct Hg as [-> | ->]; reflexivity.
Qed.

(** C1, as the spec words it, fails: for the identifier "gem42" the link's
    path is not [/item/gem42]. *)
Lemma link_path_is_not_item_route :
  option_map pathname (target_of (render "art.png" sample_card (mkLocation "/market")))
  <> Some "/item/gem42".
Proof. vm_compute. discriminate. Qed.

(** C1, amended: for every non-empty identifier the rendered container is a
    navigation link whose target path is [/gem/<identifier>]. *)
Theorem link_path_is_gem_route :
  forall (ph : string) (p : Props) (loc : Location) (s : string),
    gemId p = Some s -> s <> "" ->
    rendered_as (render ph p loc) = Some Link /\
    option_map pathname (target_of (render ph p loc))
    = Some (String.append "/gem/" s).
Proof.
  intros ph p loc s Hg Hs.
  destruct (container_with_gem ph p loc s Hg Hs) as [Has Hto].
  split; [exact Has |]. rewrite Hto. reflexivity.
Qed.

Lemma link_path_is_gem_route_witness :
  rendered_as (render "art.png" sample_card (mkLocation "/market")) = Some Link /\
  option_map pathname (target_of (render "art.png" sample_card (mkLocation "/market")))
  = Some "/gem/gem42".
Proof.
  apply (link_path_is_gem_route "art.png" sample_card (mkLocation "/market") "gem42").
  - reflexivity.
  - discriminate.
Defined.

(** C6: with a non-empty identifier the card renders as a [Link] whose target
    carries the current page's path as [prevPathname]; with the identifier
    undefined or empty the container renders as a plain [div], its [to] is
    undefined, and a click reaching it does nothing. *)
Theorem container_is_link_iff_identified :
  forall (ph : string) (p : Props) (loc : Location),
    (forall s, gemId p = Some s -> s <> "" ->
       rendered_as (render ph p loc) = Some Link /\
       target_of (render ph p loc)
       = Some (mkTo (String.append "/gem/" s) (location_pathname loc)) /\
       option_map prevPathname (target_of (render ph p loc))
       = Some (location_pathname loc)) /\
    (gemId p = None \/ gemId p = Some "" ->
       rendered_as (render ph p loc) = Some (Host "div") /\
       target_of (render ph p loc) = None /\
       get "to" (params (withDefaults p) loc) = Some (PValue VUndefined) /\
       forall e w,
         on_click (StyledContainer, params (withDefaults p) loc) e w = (Normal e, w)).
Proof.
  intros ph p loc. split.
  - intros s Hg Hs.
    destruct (container_with_gem ph p loc s Hg Hs) as [Has Hto].
    split; [exact Has |]. split; [exact Hto |]. rewrite Hto. reflexivity.
  - intros Hg. pose proof (container_without_gem ph p loc Hg) as Hp.
    unfold rendered_as, target_of, render, ArtItemWithRef. rewrite Hp.
    repeat split.
Qed.

Lemma container_is_link_iff_identified_witness :
  (rendered_as (render "art.png" sample_card (mkLocation "/market")) = Some Link /\
   target_of (render "art.png" sample_card (mkLocation "/market"))
   = Some (mkTo "/gem/gem42" "/market")) /\
  (rendered_as (render "art.png" noProps (mkLocation "/market")) = Some (Host "div") /\
   target_of (render "art.png" noProps (mkLocation "/market")) = None).
Proof.
  split.
  - destruct (container_is_link_iff_identified "art.png" sample_card (mkLocation "/market"))
      as [Hlink _].
    destruct (Hlink "gem42") as [Has [Hto _]];
      [reflexivity | discriminate |].
    split; [exact Has | exact Hto].
  - destruct (container_is_link_iff_identified "art.png" noProps (mkLocation "/market"))
      as [_ Hdiv].
    destruct Hdiv as [Has [Hto _]]; [left; reflexivity |].
    split; [exact Has | exact Hto].
Defined.

(** C8: with [dataUrl] undefined, the image's [src] is the placeholder
    asset. *)
Theorem src_defaults_to_placeholder :
  forall (ph : string) (p : Props) (loc : Location),
    dataUrl p = None ->
    image_src (render ph p loc) = Some (PValue (VString ph)).
Proof.
  intros ph p loc Hd. destruct p as [g d b dis cb]. simpl in Hd. subst d.
  reflexivity.
Qed.

Lemma src_defaults_to_placeholder_witness :
  image_src (render "art.png" noProps (mkLocation "/market"))
  = Some (PValue (VString "art.png")).
Proof.
  apply (src_defaults_to_placeholder "art.png" noProps (mkLocation "/market")).
  reflexivity.
Defined.

(** C10: the fallback goes by the truthiness of [dataUrl], not by its
    presence: the [src] is [dataUrl] when that is truthy and the placeholder
    otherwise, so the empty string gives the placeholder too. *)
Theorem empty_src_gives_placeholder :
  forall (ph : string) (loc : Location),
    (forall p,
       image_src (render ph p loc)
       = Some (PValue (if ToBoolean (of_string (dataUrl p))
                       then of_string (dataUrl p)
                       else VString ph))) /\
    (forall g b dis cb,
       image_src (render ph (mkProps g (Some "") b dis cb) loc)
       = Some (PValue (VString ph))).
Proof.
  intros ph loc. split.
  - intros [g d b dis cb]. reflexivity.
  - intros g b dis cb. reflexivity.
Qed.

End Container.

(** ** The action control *)

Module Action.
Import JS React DOM Effect ArtItem.

Lemma controls_of_render (ph : string) (p : Props) (loc : Location) :
  action_controls (render ph p loc)
  = if ToBoolean (of_label (buttonText p)) then [control p] else [].
Proof.
  destruct p as [g d b dis cb].
  unfold action_controls, render, ArtItemWithRef, logical_and, control, callback.
  cbn. destruct (ToBoolean (of_label b)); reflexivity.
Qed.

(** C2, as the spec words it, fails: for the number zero as label there is
    not one action control. *)
Lemma zero_label_renders_no_control :
  length (action_controls
            (render "art.png" (mkProps None None (Some (LNumber JS.zero)) None None)
                    (mkLocation "/market")))
  <> 1.
Proof. vm_compute. discriminate. Qed.

(** C2, amended: the action control is rendered exactly when [buttonText] is
    truthy as JavaScript has it: a non-empty string, or a number other than
    zero and NaN.  Then there is exactly one control and its child is that
    label; otherwise, as when [buttonText] is absent, there is none. *)
Theorem action_control_iff_truthy :
  forall (ph : string) (p : Props) (loc : Location),
    let label := of_label (buttonText p) in
    length (action_controls (render ph p loc))
    = (if ToBoolean label then 1 else 0) /\
    map snd (action_controls (render ph p loc))
    = (if ToBoolean label then [[Child label]] else []) /\
    ToBoolean label
    = match buttonText p with
      | None => false
      | Some (LString s) => negb (is_empty s)
      | Some (LNumber (S754_zero _)) => false
      | Some (LNumber S754_nan) => false
      | Some (LNumber _) => true
      end.
Proof.
  intros ph p loc label. subst label. rewrite controls_of_render.
  split; [destruct (ToBoolean (of_label (buttonText p))); reflexivity |].
  split; [destruct (ToBoolean (of_label (buttonText p))); reflexivity |].
  destruct (buttonText p) as [[s | x] |]; reflexivity.
Qed.



End Action.

(** ** A mounted card over a run of image events *)

Module Lifetime.
Import JS React DOM Effect ArtItem Session Capture.

(** The load handler completes exactly when there is a canvas behind the
    ref and throws a TypeError exactly when there is none; either way it
    calls no callback and sends the router nowhere. *)
Theorem load_handler_throws_iff_detached :
  forall (event : ImgEvent) (w : World),
    (fst (copyImageOnCanvas event w) = Normal tt <-> canvasRef_current w <> None) /\
    (fst (copyImageOnCanvas event w) = Throw TypeError <-> canvasRef_current w = None) /\
    observed (snd (copyImageOnCanvas event w)) = observed w.
Proof.
  intros event [[c |] obs].
  - rewrite copyImageOnCanvas_attached. cbn.
    repeat split; try discriminate; intros _; reflexivity.
  - rewrite copyImageOnCanvas_detached. cbn.
    repeat split; try discriminate; try reflexivity.
    intros H. contradiction H. reflexivity.
Qed.

(** Over any run of load and error events on a mounted card, across
    re-renders that keep the container's type (link or plain), no handler
    throws and the canvas ends as the snapshot of the last image that loaded;
    if none loaded, the canvas is as it was.  So a failed load after a
    successful one leaves the earlier picture in the canvas. *)
Theorem canvas_follows_last_load :
  forall (ph : string) (link : bool) (steps : list Step)
         (c : Canvas) (obs : list Observed),
    Forall (fun step => isLink (fst (fst step)) = link) steps ->
    dispatch_all ph link steps (mkWorld (Some c) obs)
    = (Normal tt,
       mkWorld (Some match last_loaded steps with
                     | Some image => snapshot image
                     | None => c
                     end) obs).
Proof.
  intros ph link steps. induction steps as [| [[p loc] [ty image]] later IH];
    intros c obs Hkind.
  - reflexivity.
  - apply Forall_cons_iff in Hkind as [Hp Hlater]. cbn [fst] in Hp.
    cbn [dispatch_all last_loaded type target].
    unfold bind, rerender, deliver. cbn [mounted canvasRef_current].
    rewrite Hp, Bool.eqb_reflx. cbn [negb andb mounted canvasRef_current].
    destruct ty.
    + rewrite dispatch_load, copyImageOnCanvas_attached, (IH _ _ Hlater).
      destruct (last_loaded later); reflexivity.
    + rewrite dispatch_error. unfold ret. rewrite (IH _ _ Hlater).
      destruct (last_loaded later); reflexivity.
Qed.

Lemma canvas_follows_last_load_witness :
  dispatch_all "art.png" true
    [ (sample_card, mkLocation "/market", mkImgEvent load gradient);
      (guarded_card, mkLocation "/profile", mkImgEvent error (mkImage 0 0 (fun _ _ => transparent))) ]
    (mkWorld (Some scribble) [])
  = (Normal tt, mkWorld (Some (snapshot gradient)) []).
Proof.
  apply (canvas_follows_last_load "art.png" true
           [ (sample_card, mkLocation "/market", mkImgEvent load gradient);
             (guarded_card, mkLocation "/profile",
              mkImgEvent error (mkImage 0 0 (fun _ _ => transparent))) ]
           scribble []).
  repeat constructor.
Defined.

End Lifetime.

(** ** Clicks on any card *)

Module Clicks.
Import JS React DOM Effect ArtItem Session Capture.




(** On a card that is not a link (no identifier, or an empty one), a click
    on the shown, enabled action control calls the handler once and
    navigates nowhere, whatever the handler does with the event. *)
Theorem plain_card_never_navigates :
  forall (ph : string) (p : Props) (loc : Location) (w : World),
    isLink p = false ->
    ToBoolean (of_label (buttonText p)) = true ->
    ToBoolean (of_bool (isButtonDisabled p)) = false ->
    click_action (render ph p loc) w
    = (Normal tt, mkWorld (canvasRef_current w) (observed w ++ [Called freshClick])).
Proof.
  intros ph [g d b dis cb] loc [c obs] Hlink Hlabel Hdis.
  unfold isLink in Hlink. cbn [gemId buttonText isButtonDisabled] in *.
  unfold click_action, render, ArtItemWithRef, logical_and, params, isLink.
  cbn [withDefaults gemId dataUrl buttonText isButtonDisabled onButtonClick].
  rewrite Hlink, Hlabel. cbn - [ToBoolean].
  unfold bind, on_click, Button_click. cbn - [ToBoolean].
  rewrite Hdis. reflexivity.
Qed.

Lemma plain_card_never_navigates_witness :
  click_action
    (render "art.png" (mkProps None None (Some (LString "Bid 55")) None None)
            (mkLocation "/market"))
    initial
  = (Normal tt, mkWorld None [Called freshClick]).
Proof.
  apply (plain_card_never_navigates "art.png"
           (mkProps None None (Some (LString "Bid 55")) None None)
           (mkLocation "/market") initial); reflexivity.
Defined.


End Clicks.

(** ** The markup of any card *)

Module Markup.
Import JS React DOM Effect ArtItem Session.

Lemma isLink_nonempty (p : Props) :
  isLink p = true -> exists a s, gemId p = Some (String a s).
Proof.
  destruct p as [[[| a s] |] d b dis cb]; cbn; try discriminate.
  intros _. exists a, s. reflexivity.
Qed.

(** The link's target tells the gem: two link cards with the same target
    have the same identifier and were rendered on the same path. *)
Theorem link_target_determines_gem :
  forall (ph : string) (p1 p2 : Props) (loc1 loc2 : Location),
    isLink p1 = true -> isLink p2 = true ->
    target_of (render ph p1 loc1) = target_of (render ph p2 loc2) ->
    gemId p1 = gemId p2 /\ location_pathname loc1 = location_pathname loc2.
Proof.
  intros ph p1 p2 loc1 loc2 H1 H2.
  destruct (isLink_nonempty p1 H1) as [a1 [s1 Hg1]].
  destruct (isLink_nonempty p2 H2) as [a2 [s2 Hg2]].
  destruct p1 as [g1 d1 b1 dis1 cb1], p2 as [g2 d2 b2 dis2 cb2].
  cbn in Hg1, Hg2. subst g1 g2. cbn.
  intros Heq. injection Heq as Ha Hs Hloc.
  subst. split; [reflexivity | exact Hloc].
Qed.

Lemma link_target_determines_gem_witness :
  gemId sample_card = gemId guarded_card /\
  location_pathname (mkLocation "/market") = location_pathname (mkLocation "/market").
Proof.
  apply (link_target_determines_gem "art.png" sample_card guarded_card
           (mkLocation "/market") (mkLocation "/market")); reflexivity.
Defined.

(** Every render has exactly one [img] and exactly one [canvas], and the
    block that holds them depends on [dataUrl] alone: not on the identifier,
    the label, the disabled flag, the handler or the location. *)
Theorem image_block_depends_on_dataUrl_only :
  forall (ph : string) (p1 p2 : Props) (loc1 loc2 : Location),
    length (elements (Host "img") (render ph p1 loc1)) = 1 /\
    length (elements (Host "canvas") (render ph p1 loc1)) = 1 /\
    (dataUrl p1 = dataUrl p2 ->
     hd_error (children_of (render ph p1 loc1))
     = hd_error (children_of (render ph p2 loc2)) /\
     elements (Host "img") (render ph p1 loc1)
     = elements (Host "img") (render ph p2 loc2)).
Proof.
  intros ph [g1 d1 b1 dis1 cb1] [g2 d2 b2 dis2 cb2] loc1 loc2.
  unfold render, ArtItemWithRef, logical_and.
  cbn [withDefaults gemId dataUrl buttonText isButtonDisabled onButtonClick].
  split; [destruct (ToBoolean (of_label b1)); reflexivity |].
  split; [destruct (ToBoolean (of_label b1)); reflexivity |].
  intros ->. split; [reflexivity |].
  destruct (ToBoolean (of_label b1)), (ToBoolean (of_label b2)); reflexivity.
Qed.

Lemma image_block_depends_on_dataUrl_only_witness :
  hd_error (children_of (render "art.png" sample_card (mkLocation "/market")))
  = hd_error (children_of (render "art.png"
                (mkProps None (Some "https://x/img.png") None (Some true) None)
                (mkLocation "/")))
  /\
  elements (Host "img") (render "art.png" sample_card (mkLocation "/market"))
  = elements (Host "img") (render "art.png"
                (mkProps None (Some "https://x/img.png") None (Some true) None)
                (mkLocation "/")).
Proof.
  destruct (image_block_depends_on_dataUrl_only "art.png" sample_card
              (mkProps None (Some "https://x/img.png") None (Some true) None)
              (mkLocation "/market") (mkLocation "/")) as [_ [_ H]].
  apply H. reflexivity.
Defined.

(** When [buttonText] is falsy, the [&&] leaves the value itself as the
    container's second child.  React prints it exactly when it is a number
    (zero or NaN): such a label shows up as bare text where the button
    would be, while an absent or empty label leaves nothing. *)
Theorem falsy_label_left_as_child :
  forall (ph : string) (p : Props) (loc : Location),
    ToBoolean (of_label (buttonText p)) = false ->
    nth_error (children_of (render ph p loc)) 1
    = Some (Child (of_label (buttonText p))) /\
    length (children_of (render ph p loc)) = 2 /\
    (prints (of_label (buttonText p)) = true
     <-> exists x, buttonText p = Some (LNumber x)).
Proof.
  intros ph [g d b dis cb] loc Hfalsy. cbn [buttonText] in *.
  unfold render, ArtItemWithRef, logical_and.
  cbn [withDefaults gemId dataUrl buttonText isButtonDisabled onButtonClick].
  rewrite Hfalsy. split; [reflexivity |]. split; [reflexivity |].
  destruct b as [[s | x] |]; cbn in *.
  - rewrite Hfalsy. split; [discriminate | intros [x Hx]; discriminate].
  - split; [intros _; exists x; reflexivity | reflexivity].
  - split; [discriminate | intros [x Hx]; discriminate].
Qed.

Lemma falsy_label_left_as_child_witness :
  nth_error
    (children_of (render "art.png" (mkProps None None (Some (LNumber JS.zero)) None None)
                         (mkLocation "/market"))) 1
  = Some (Child (VNumber JS.zero)) /\
  prints (VNumber JS.zero) = true.
Proof.
  destruct (falsy_label_left_as_child "art.png"
              (mkProps None None (Some (LNumber JS.zero)) None None)
              (mkLocation "/market")) as [Hchild [_ Hprints]]; [reflexivity |].
  split; [exact Hchild |].
  apply Hprints. exists JS.zero. reflexivity.
Defined.

End Markup.

(** ** The first version of the card *)

Module LegacyFacts.
Import JS React DOM Effect Session.

(** The first version of the card is inert: its container is a plain [div]
    with no target, it has no canvas and binds no load handler, so an image
    event changes nothing; its button is given no handler, so a click on it
    changes nothing either. *)
Theorem legacy_card_is_inert :
  forall (ph : string) (p : Legacy.Props) (event : ImgEvent) (w : World),
    ArtItem.rendered_as (Legacy.ArtItem ph p) = Some (Host "div") /\
    ArtItem.target_of (Legacy.ArtItem ph p) = None /\
    elements (Host "canvas") (Legacy.ArtItem ph p) = [] /\
    ArtItem.bindings (Legacy.ArtItem ph p) = [] /\
    ArtItem.dispatch_img (Legacy.ArtItem ph p) event w = (Normal tt, w) /\
    ArtItem.click_action (Legacy.ArtItem ph p) w = (Normal tt, w).
Proof.
  intros ph p [ty image] w.
  repeat split. destruct ty; reflexivity.
Qed.

(** The first version always shows exactly one button, whatever the props;
    its label is "Bid ", the bid, and the currency sign, where a missing or
    empty bid is replaced by the number 55. *)
Theorem legacy_button_label :
  forall (ph : string) (p : Legacy.Props),
    map snd (ArtItem.action_controls (Legacy.ArtItem ph p))
    = [[ Child (VString "Bid ");
         Child match Legacy.bid p with
               | Some (String a s) => VString (String a s)
               | _ => VNumber Legacy.placeholderBid
               end;
         Child (VString "Ⓝ") ]].
Proof.
  intros ph [d [[| a s] |]]; reflexivity.
Qed.

(** Both versions of the card pick the image source the same way: given
    the same [dataUrl], they render the same [src]. *)
Theorem legacy_src_agrees :
  forall (ph : string) (p : Legacy.Props) (q : ArtItem.Props) (loc : ArtItem.Location),
    Legacy.dataUrl p = ArtItem.dataUrl q ->
    ArtItem.image_src (Legacy.ArtItem ph p)
    = ArtItem.image_src (ArtItem.render ph q loc).
Proof.
  intros ph [d b] [g d' b' dis cb] loc. cbn. intros ->.
  unfold ArtItem.image_src, ArtItem.render, ArtItem.ArtItemWithRef, logical_and.
  cbn [ArtItem.withDefaults ArtItem.gemId ArtItem.dataUrl ArtItem.buttonText
       ArtItem.isButtonDisabled ArtItem.onButtonClick].
  destruct (ToBoolean (ArtItem.of_label b')); reflexivity.
Qed.

Lemma legacy_src_agrees_witness :
  ArtItem.image_src (Legacy.ArtItem "art.png" (Legacy.mkProps (Some "") (Some "12")))
  = ArtItem.image_src
      (ArtItem.render "art.png" (ArtItem.mkProps (Some "gem42") (Some "") None None None)
                      (ArtItem.mkLocation "/market")).
Proof.
  apply (legacy_src_agrees "art.png" (Legacy.mkProps (Some "") (Some "12"))
           (ArtItem.mkProps (Some "gem42") (Some "") None None None)
           (ArtItem.mkLocation "/market")).
  reflexivity.
Defined.

End LegacyFacts.
